(** * The review controller of the AI code reviewer backend

    A shallow embedding of [BACKEND/src/controller/ai.controller.js]:
    the JavaScript values the handler touches, the effects it performs
    (one call to the AI service, calls on the Express response object,
    one [console.error]) and the handler [getReview] itself, followed by
    the properties of the handler. *)

From Stdlib Require Import ZArith Floats.SpecFloat.
From stdpp Require Import base gmap strings list.

Set Warnings "-register-all".
Open Scope Z_scope.
Open Scope string_scope.

(** ** JavaScript values *)

Module JS.

(** The values that a parsed request body, a resolved promise or a thrown
    exception can be: [undefined] and the values of JSON.  Numbers are IEEE
    doubles; an object is a finite map from property names to values.  An
    [Error] instance is an object with a [message] property. *)
Inductive JSValue : Type :=
| JUndefined
| JNull
| JBool (b : bool)
| JNumber (x : spec_float)
| JString (s : string)
| JArray (xs : list JSValue)
| JObject (fields : gmap string JSValue).

(** [ToBoolean]: the falsy values are [undefined], [null], [false],
    [+0], [-0], [NaN] and the empty string. *)
Definition truthy (v : JSValue) : bool :=
  match v with
  | JUndefined | JNull => false
  | JBool b => b
  | JNumber (S754_zero _) | JNumber S754_nan => false
  | JNumber _ => true
  | JString EmptyString => false
  | JString _ => true
  | JArray _ | JObject _ => true
  end.

(** How an evaluation ends: with a value, or with a thrown value. *)
Inductive Completion (A : Type) : Type :=
| Normal (a : A)
| Throw (e : JSValue).
Arguments Normal {A} a.
Arguments Throw {A} e.

Definition TypeError (message : string) : JSValue :=
  JObject {[ "name" := JString "TypeError"; "message" := JString message ]}.

Definition cannot_read (base key : string) : JSValue :=
  TypeError ("Cannot read properties of " +:+ base +:+ " (reading '" +:+ key +:+ "')").

(** The property read [o.key].  Reading a property of [undefined] or
    [null] throws a [TypeError]; a missing property reads as [undefined].
    The built-in properties of primitives and arrays ([length], indices,
    methods) are not represented: the controller reads only [code] and
    [message], which none of them defines. *)
Definition get_member (o : JSValue) (key : string) : Completion JSValue :=
  match o with
  | JUndefined => Throw (cannot_read "undefined" key)
  | JNull => Throw (cannot_read "null" key)
  | JObject fields => Normal (default JUndefined (fields !! key))
  | JBool _ | JNumber _ | JString _ | JArray _ => Normal JUndefined
  end.

End JS.
Export JS.

(** ** Effects *)

(** How the promise returned by the AI service settles. *)
Inductive Settled : Type :=
| Resolved (response : JSValue)
| Rejected (reason : JSValue).

(** What the handler does to the outside world, in order. *)
Inductive Event : Type :=
| EvCall (code : JSValue)          (* aiService(code) is invoked *)
| EvSettle (s : Settled)           (* the awaited promise settles *)
| EvStatus (n : Z)                 (* res.status(n) *)
| EvSend (payload : JSValue)       (* res.send(payload) *)
| EvLog (args : list JSValue).     (* console.error(...args) *)

(** A computation emits events and completes normally or by throwing. *)
Definition M (A : Type) : Type := (list Event * Completion A)%type.

#[global] Instance M_ret : MRet M := λ A a, ([], Normal a).

#[global] Instance M_bind : MBind M := λ A B k m,
  match m with
  | (t, Normal a) => let '(t', r) := k a in ((t ++ t')%list, r)
  | (t, Throw e) => (t, Throw e)
  end.

Definition lift {A} (c : Completion A) : M A := ([], c).

Definition emit (e : Event) : M unit := ([e], Normal tt).

(** [try { body } catch (error) { handler error }] *)
Definition try_catch {A} (body : M A) (handler : JSValue → M A) : M A :=
  match body with
  | (t, Throw e) => let '(t', r) := handler e in ((t ++ t')%list, r)
  | (t, Normal a) => (t, Normal a)
  end.

Definition trace {A} (m : M A) : list Event := fst m.
Definition completion {A} (m : M A) : Completion A := snd m.

(** ** The request and the response object *)

(** The Express request; the handler reads [req.body] only, which is
    [undefined] when no body parser filled it in. *)
Record Request : Type := mkRequest {
  method : string;
  url : string;
  headers : gmap string string;
  body : JSValue
}.

(** The Express response object, seen through the two methods the handler
    calls on a response nothing has been sent on yet: [res.status(n)] sets
    the status code and [res.send(payload)] sends the response with the
    status code set so far.  Neither throws for the status codes and the
    values at hand.  [console.error] writes one diagnostic line. *)
Definition res_status (n : Z) : M unit := emit (EvStatus n).
Definition res_send (payload : JSValue) : M unit := emit (EvSend payload).
Definition console_error (args : list JSValue) : M unit := emit (EvLog args).

(** ** The controller *)

Definition prompt_required : string := "Prompt is required".
Definition generic_failure : string :=
  "An error occurred while processing your request.".

Section Controller.

(** The AI service, [require("../services/ai.service.js")]: for each
    argument, how the promise it returns settles. *)
Variable aiService : JSValue → Settled.

(** [await aiService(code)] *)
Definition await_aiService (code : JSValue) : M JSValue :=
  emit (EvCall code);;
  emit (EvSettle (aiService code));;
  match aiService code with
  | Resolved response => mret response
  | Rejected reason => lift (Throw reason)
  end.

Definition getReview (req : Request) : M unit :=
  try_catch
    (code ← lift (get_member (body req) "code");
     if negb (truthy code) then
       res_status 400;; res_send (JString prompt_required)
     else
       response ← await_aiService code;
       res_status 200;; res_send response)
    (λ error,
       message ← lift (get_member error "message");
       console_error [JString "Error in controller:"; message];;
       res_status 500;; res_send (JString generic_failure)).

End Controller.

(** ** Observations on a trace *)

(** The arguments of the calls made to the AI service. *)
Fixpoint calls (t : list Event) : list JSValue :=
  match t with
  | [] => []
  | EvCall code :: t' => code :: calls t'
  | _ :: t' => calls t'
  end.

(** The results obtained from the AI service. *)
Fixpoint results (t : list Event) : list Settled :=
  match t with
  | [] => []
  | EvSettle s :: t' => s :: results t'
  | _ :: t' => results t'
  end.

(** The diagnostic lines written by [console.error]. *)
Fixpoint logs (t : list Event) : list (list JSValue) :=
  match t with
  | [] => []
  | EvLog args :: t' => args :: logs t'
  | _ :: t' => logs t'
  end.

(** The HTTP responses sent, each with the status code in force when
    [send] was called; [status] is the code set so far. *)
Fixpoint responses_from (status : Z) (t : list Event) : list (Z * JSValue) :=
  match t with
  | [] => []
  | EvStatus n :: t' => responses_from n t'
  | EvSend payload :: t' => (status, payload) :: responses_from status t'
  | _ :: t' => responses_from status t'
  end.

(** Express starts every response with status code 200. *)
Definition responses (t : list Event) : list (Z * JSValue) :=
  responses_from 200 t.

(** No call on the response object happens between the invocation of the
    AI service and the settlement of its promise. *)
Fixpoint quiet_while_pending (pending : bool) (t : list Event) : bool :=
  match t with
  | [] => true
  | EvCall _ :: t' => quiet_while_pending true t'
  | EvSettle _ :: t' => quiet_while_pending false t'
  | EvStatus _ :: t' | EvSend _ :: t' =>
      negb pending && quiet_while_pending pending t'
  | EvLog _ :: t' => quiet_while_pending pending t'
  end.

(** The validation [if (!code)] lets the request through. *)
Definition validated (req : Request) : bool :=
  match get_member (body req) "code" with
  | Normal code => truthy code
  | Throw _ => false
  end.

(** The value the [catch] block receives, when the [try] block throws:
    what the read of [req.body.code] threw, or the reason the awaited
    promise of the AI service was rejected with.  [None] when the [try]
    block completes and the [catch] block is not entered. *)
Definition caught (aiService : JSValue → Settled) (req : Request) : option JSValue :=
  match get_member (body req) "code" with
  | Throw e => Some e
  | Normal code =>
      if negb (truthy code) then None
      else match aiService code with
           | Resolved _ => None
           | Rejected reason => Some reason
           end
  end.

(** ** The five ways a run of the handler can go *)

(** The shapes a run can have, by the outcome of the two property reads, of
    the validation and of the AI service; [getReview_run] below shows that
    every run of [getReview] has one of them. *)

Definition log_line (message : JSValue) : Event :=
  EvLog [JString "Error in controller:"; message].

Definition failure_response (message : JSValue) : list Event :=
  [log_line message; EvStatus 500; EvSend (JString generic_failure)].

Inductive run (aiService : JSValue → Settled) (req : Request) : M unit → Prop :=
| run_unreadable e message :
    get_member (body req) "code" = Throw e →
    get_member e "message" = Normal message →
    run aiService req (failure_response message, Normal tt)
| run_invalid code :
    get_member (body req) "code" = Normal code →
    truthy code = false →
    run aiService req ([EvStatus 400; EvSend (JString prompt_required)], Normal tt)
| run_resolved code response :
    get_member (body req) "code" = Normal code →
    truthy code = true →
    aiService code = Resolved response →
    run aiService req ([EvCall code; EvSettle (Resolved response);
                        EvStatus 200; EvSend response], Normal tt)
| run_rejected code reason message :
    get_member (body req) "code" = Normal code →
    truthy code = true →
    aiService code = Rejected reason →
    get_member reason "message" = Normal message →
    run aiService req
        (EvCall code :: EvSettle (Rejected reason) :: failure_response message,
         Normal tt)
| run_escaped code reason e :
    get_member (body req) "code" = Normal code →
    truthy code = true →
    aiService code = Rejected reason →
    get_member reason "message" = Throw e →
    run aiService req ([EvCall code; EvSettle (Rejected reason)], Throw e).

(** ** Sample inputs *)

Definition post (b : JSValue) : Request :=
  mkRequest "POST" "/ai/get-review" ∅ b.

Definition snippet : JSValue := JString "function sum(){return a+b;}".

Definition new_Error (message : string) : JSValue :=
  JObject {[ "message" := JString message ]}.

(** Stubs of the AI service. *)
Definition resolves_with (response : JSValue) : JSValue → Settled :=
  λ _, Resolved response.
Definition rejects_with (reason : JSValue) : JSValue → Settled :=
  λ _, Rejected reason.

Definition empty_body : Request := post (JObject ∅).
Definition sum_request : Request := post (JObject {[ "code" := snippet ]}).


Definition numbers : JSValue :=
  JArray [JNumber (S754_finite false 1 0); JNumber (S754_zero false)].

(** * Properties *)

(** ** The scenarios of the specification *)

Example scenario_A_success :
  getReview (λ _, Resolved (JString "Looks fine."))
            (post (JObject {[ "code" := snippet ]}))
  = ([EvCall snippet; EvSettle (Resolved (JString "Looks fine."));
      EvStatus 200; EvSend (JString "Looks fine.")], Normal tt).
Proof. vm_compute. reflexivity. Qed.

Example scenario_A_failure :
  getReview (λ _, Rejected (new_Error "quota exceeded"))
            (post (JObject {[ "code" := snippet ]}))
  = ([EvCall snippet; EvSettle (Rejected (new_Error "quota exceeded"));
      EvLog [JString "Error in controller:"; JString "quota exceeded"];
      EvStatus 500; EvSend (JString generic_failure)], Normal tt).
Proof. vm_compute. reflexivity. Qed.

Example scenario_B :
  getReview (λ _, Resolved (JString "unused"))
            (post (JObject {[ "code" := JString EmptyString ]}))
  = ([EvStatus 400; EvSend (JString prompt_required)], Normal tt).
Proof. vm_compute. reflexivity. Qed.

Example scenario_C :
  getReview (λ _, Resolved (JString "unused")) (post (JObject ∅))
  = ([EvStatus 400; EvSend (JString prompt_required)], Normal tt).
Proof. vm_compute. reflexivity. Qed.

Example no_body :
  responses (trace (getReview (λ _, Resolved (JString "unused")) (post JUndefined)))
  = [(500, JString generic_failure)].
Proof. vm_compute. reflexivity. Qed.

(** ** Truthiness and property reads *)

Example falsy_values :
  forallb (λ v, negb (truthy v))
    [JUndefined; JNull; JBool false; JNumber (S754_zero false);
     JNumber (S754_zero true); JNumber S754_nan; JString EmptyString] = true.
Proof. reflexivity. Qed.

Example truthy_values :
  forallb truthy
    [JBool true; JNumber (S754_finite true 1 0); JNumber (S754_infinity false);
     JString "0"; JString " "; JString "false"; JArray []; JObject ∅] = true.
Proof. reflexivity. Qed.

Example absent_field_reads_undefined :
  get_member (JObject {[ "prompt" := snippet ]}) "code" = Normal JUndefined.
Proof. by vm_compute. Qed.

Example string_body_has_no_code :
  get_member (JString "code=1") "code" = Normal JUndefined.
Proof. reflexivity. Qed.

(** Reading a property an object has. *)
Lemma get_member_object (fields : gmap string JSValue) (key : string) (v : JSValue) :
  fields !! key = Some v → get_member (JObject fields) key = Normal v.
Proof. intros Hk. simpl. by rewrite Hk. Qed.

Lemma TypeError_message (message : string) :
  get_member (TypeError message) "message" = Normal (JString message).
Proof. unfold TypeError. apply get_member_object. by simplify_map_eq. Qed.

(** A property read throws for [undefined] and [null] only, and what it
    throws carries a message. *)
Lemma get_member_throw (o : JSValue) (key : string) (e : JSValue) :
  get_member o key = Throw e →
  (o = JUndefined ∨ o = JNull) ∧
  ∃ message, get_member e "message" = Normal (JString message).
Proof.
  destruct o; simpl; intros [= <-]; (split; [auto|]);
    eexists; apply TypeError_message.
Qed.

Lemma get_member_normal (o : JSValue) (key : string) :
  o ≠ JUndefined → o ≠ JNull → ∃ v, get_member o key = Normal v.
Proof. destruct o; simpl; intros; try done; eauto. Qed.

(** A string is truthy exactly when it is not empty. *)
Lemma truthy_string (s : string) : truthy (JString s) = true ↔ s ≠ EmptyString.
Proof. destruct s; simpl; split; congruence. Qed.

(** ** Every run of the handler is one of the five *)

Lemma getReview_run (aiService : JSValue → Settled) (req : Request) :
  run aiService req (getReview aiService req).
Proof.
  unfold getReview.
  destruct (get_member (body req) "code") as [code|e] eqn:Hcode; simpl.
  - destruct (truthy code) eqn:Htruthy; simpl.
    + unfold await_aiService.
      destruct (aiService code) as [response|reason] eqn:Hai; simpl.
      * eapply run_resolved; eauto.
      * destruct (get_member reason "message") as [message|e] eqn:Hmsg; simpl.
        -- eapply run_rejected; eauto.
        -- eapply run_escaped; eauto.
    + by eapply run_invalid.
  - destruct (get_member_throw _ _ _ Hcode) as [_ [message Hmsg]].
    rewrite Hmsg; simpl.
    eapply run_unreadable; eauto.
Qed.

(** Case analysis on the run of the handler: the five cases, with the
    equations of each case confronted with those of the context. *)
Ltac run_cases ai req :=
  destruct (getReview_run ai req);
  repeat match goal with
         | H1 : ?f = _, H2 : ?f = _ |- _ =>
             rewrite H1 in H2;
             first [ discriminate H2 | injection H2 as H2; subst | clear H2 ]
         end.

(** ** Validation *)




(** C9. Any truthy value of the [code] field, of whatever type, passes the
    validation and is handed to the AI service as it is: the one call made
    has that very value as its argument. *)
Theorem truthy_code_is_forwarded_as_is
    (aiService : JSValue → Settled) (req : Request) (code : JSValue) :
  get_member (body req) "code" = Normal code →
  truthy code = true →
  validated req = true
  ∧ calls (trace (getReview aiService req)) = [code].
Proof.
  intros Hcode Htruthy. split.
  - unfold validated. by rewrite Hcode.
  - run_cases aiService req; done.
Qed.

Lemma truthy_code_is_forwarded_as_is_witness :
  get_member (body (post (JObject {[ "code" := numbers ]}))) "code" = Normal numbers
  ∧ truthy numbers = true
  ∧ validated (post (JObject {[ "code" := numbers ]})) = true
  ∧ calls (trace (getReview (resolves_with JNull) (post (JObject {[ "code" := numbers ]}))))
      = [numbers].
Proof.
  split; [by vm_compute|]. split; [reflexivity|].
  apply (truthy_code_is_forwarded_as_is _ _ numbers); by vm_compute.
Defined.

(** C4. For a request whose [code] is a non-empty string, the handler calls
    the AI service exactly once, with that string unchanged. *)
Theorem nonempty_string_is_forwarded_once
    (aiService : JSValue → Settled) (req : Request) (s : string) :
  get_member (body req) "code" = Normal (JString s) →
  s ≠ EmptyString →
  length (calls (trace (getReview aiService req))) = 1%nat
  ∧ calls (trace (getReview aiService req)) = [JString s].
Proof.
  intros Hcode Hs.
  apply truthy_string in Hs.
  assert (calls (trace (getReview aiService req)) = [JString s]) as ->.
  { run_cases aiService req; done. }
  done.
Qed.

Lemma nonempty_string_is_forwarded_once_witness :
  get_member (body sum_request) "code" = Normal snippet
  ∧ "function sum(){return a+b;}" ≠ EmptyString
  ∧ length (calls (trace (getReview (resolves_with JNull) sum_request))) = 1%nat
  ∧ calls (trace (getReview (resolves_with JNull) sum_request)) = [snippet].
Proof.
  split; [by vm_compute|]. split; [discriminate|].
  apply (nonempty_string_is_forwarded_once _ sum_request);
    [by vm_compute | discriminate].
Defined.

(** ** Relaying the outcome of the AI service *)

(** C3. When the [code] field is truthy and the AI service resolves with
    the text [T], the handler answers with status 200 and the body [T],
    the very same string. *)
Theorem resolved_text_is_answered_200
    (aiService : JSValue → Settled) (req : Request) (code : JSValue) (T : string) :
  get_member (body req) "code" = Normal code →
  truthy code = true →
  aiService code = Resolved (JString T) →
  responses (trace (getReview aiService req)) = [(200, JString T)].
Proof.
  intros Hcode Htruthy Hai.
  run_cases aiService req; done.
Qed.

Lemma resolved_text_is_answered_200_witness :
  get_member (body sum_request) "code" = Normal snippet
  ∧ truthy snippet = true
  ∧ resolves_with (JString "  Looks fine.  ") snippet = Resolved (JString "  Looks fine.  ")
  ∧ responses (trace (getReview (resolves_with (JString "  Looks fine.  ")) sum_request))
      = [(200, JString "  Looks fine.  ")].
Proof.
  split; [by vm_compute|]. split; [reflexivity|]. split; [reflexivity|].
  apply (resolved_text_is_answered_200 _ sum_request snippet);
    [by vm_compute | reflexivity | reflexivity].
Defined.

(** A rejection whose reason has properties, as every object and every
    primitive other than [undefined] and [null] has, is answered with
    status 500 and the fixed message, after one diagnostic line. *)
Lemma rejection_is_answered_500
    (aiService : JSValue → Settled) (req : Request) (code reason : JSValue) :
  get_member (body req) "code" = Normal code →
  truthy code = true →
  aiService code = Rejected reason →
  reason ≠ JUndefined → reason ≠ JNull →
  responses (trace (getReview aiService req)) = [(500, JString generic_failure)]
  ∧ length (logs (trace (getReview aiService req))) = 1%nat
  ∧ completion (getReview aiService req) = Normal tt.
Proof.
  intros Hcode Htruthy Hai Hundef Hnull.
  destruct (get_member_normal reason "message" Hundef Hnull) as [message Hmsg].
  run_cases aiService req; done.
Qed.

(** A request without a parsed body is answered like a failed generation. *)
Lemma unreadable_body_is_answered_500
    (aiService : JSValue → Settled) (req : Request) :
  body req = JUndefined ∨ body req = JNull →
  responses (trace (getReview aiService req)) = [(500, JString generic_failure)]
  ∧ calls (trace (getReview aiService req)) = [].
Proof.
  intros Hbody.
  assert (∃ e, get_member (body req) "code" = Throw e) as [e He].
  { destruct Hbody as [-> | ->]; simpl; eauto. }
  run_cases aiService req; done.
Qed.

(** C2. The AI service rejecting with [undefined] (a bare
    [Promise.reject()]) is a failure the handler does not turn into a 500:
    reading [error.message] in the catch block throws in its turn, nothing
    is logged, no response is sent and the handler's own promise rejects. *)
Theorem rejection_with_undefined_is_not_answered :
  getReview (rejects_with JUndefined) sum_request
    = ([EvCall snippet; EvSettle (Rejected JUndefined)],
       Throw (TypeError "Cannot read properties of undefined (reading 'message')"))
  ∧ responses (trace (getReview (rejects_with JUndefined) sum_request)) = []
  ∧ logs (trace (getReview (rejects_with JUndefined) sum_request)) = [].
Proof. by vm_compute. Qed.

(** ** What the handler can do at all *)

(** Every run ends in one of four ways: the three responses, or no
    response at all when the rejection reason is [undefined] or [null]. *)
Lemma getReview_outcomes (aiService : JSValue → Settled) (req : Request) :
  let r := getReview aiService req in
  (completion r = Normal tt ∧
   (responses (trace r) = [(400, JString prompt_required)]
    ∨ (∃ response, responses (trace r) = [(200, response)])
    ∨ responses (trace r) = [(500, JString generic_failure)]))
  ∨ (∃ code reason e,
       aiService code = Rejected reason ∧ (reason = JUndefined ∨ reason = JNull)
       ∧ completion r = Throw e ∧ responses (trace r) = []).
Proof.
  intros r; subst r.
  destruct (getReview_run aiService req) as
    [e message He Hm | code Hc Ht | code response Hc Ht Ha
    | code reason message Hc Ht Ha Hm | code reason e Hc Ht Ha Hm].
  - left; split; [done|]. by right; right.
  - left; split; [done|]. by left.
  - left; split; [done|]. right; left. by eexists.
  - left; split; [done|]. by right; right.
  - right. exists code, reason, e.
    by destruct (get_member_throw _ _ _ Hm) as [Hnullish _].
Qed.

(** C8. The handler does not answer every request: when the AI service
    rejects with [undefined] or [null] (any reason whose [message] cannot
    be read), the catch block throws, no response is sent and the handler
    completes with that exception instead of returning. *)
Theorem unreadable_rejection_leaves_no_response
    (aiService : JSValue → Settled) (req : Request) (code reason e : JSValue) :
  get_member (body req) "code" = Normal code →
  truthy code = true →
  aiService code = Rejected reason →
  get_member reason "message" = Throw e →
  responses (trace (getReview aiService req)) = []
  ∧ completion (getReview aiService req) = Throw e.
Proof.
  intros Hcode Htruthy Hai Hmsg.
  run_cases aiService req; done.
Qed.

Lemma unreadable_rejection_leaves_no_response_witness :
  get_member (body sum_request) "code" = Normal snippet
  ∧ truthy snippet = true
  ∧ rejects_with JNull snippet = Rejected JNull
  ∧ get_member JNull "message" = Throw (cannot_read "null" "message")
  ∧ responses (trace (getReview (rejects_with JNull) sum_request)) = []
  ∧ completion (getReview (rejects_with JNull) sum_request)
      = Throw (cannot_read "null" "message").
Proof.
  split; [by vm_compute|]. do 3 (split; [reflexivity|]).
  apply (unreadable_rejection_leaves_no_response _ sum_request snippet JNull);
    [by vm_compute | reflexivity | reflexivity | reflexivity].
Defined.

(** ** Order and number of the effects *)

(** C5. Whatever the AI service returned during a run was returned for a
    [code] that passed the validation: the field read as a truthy value,
    not the empty string, and the result is the service's answer to that
    value.  A request that fails the validation has no result. *)
Theorem result_only_for_validated_code
    (aiService : JSValue → Settled) (req : Request) (s : Settled) :
  s ∈ results (trace (getReview aiService req)) →
  validated req = true
  ∧ ∃ code, get_member (body req) "code" = Normal code
            ∧ truthy code = true
            ∧ code ≠ JString EmptyString
            ∧ s = aiService code.
Proof.
  unfold validated.
  destruct (getReview_run aiService req) as
    [e message He Hm | code Hc Ht | code response Hc Ht Ha
    | code reason message Hc Ht Ha Hm | code reason e Hc Ht Ha Hm];
    simpl; intros Hin.
  1, 2: by apply elem_of_nil in Hin.
  all: apply list_elem_of_singleton in Hin as ->;
    rewrite Hc; split; [done|];
    exists code; repeat split; try done;
    intros ->; discriminate.
Qed.

Lemma result_only_for_validated_code_witness :
  Resolved (JString "Looks fine.")
    ∈ results (trace (getReview (resolves_with (JString "Looks fine.")) sum_request))
  ∧ validated sum_request = true
  ∧ ∃ code, get_member (body sum_request) "code" = Normal code
            ∧ truthy code = true
            ∧ code ≠ JString EmptyString
            ∧ Resolved (JString "Looks fine.")
              = resolves_with (JString "Looks fine.") code.
Proof.
  assert (Resolved (JString "Looks fine.")
            ∈ results (trace (getReview (resolves_with (JString "Looks fine."))
                                        sum_request))) as Hin.
  { vm_compute. apply list_elem_of_here. }
  split; [exact Hin|].
  exact (result_only_for_validated_code _ sum_request _ Hin).
Defined.

(** A request that fails the validation reaches the AI service not at all. *)
Lemma no_result_without_validation
    (aiService : JSValue → Settled) (req : Request) :
  validated req = false →
  calls (trace (getReview aiService req)) = []
  ∧ results (trace (getReview aiService req)) = [].
Proof.
  unfold validated. intros Hv.
  destruct (getReview_run aiService req) as
    [e message He Hm | code Hc Ht | code response Hc Ht Ha
    | code reason message Hc Ht Ha Hm | code reason e Hc Ht Ha Hm];
    try done; rewrite Hc in Hv; congruence.
Qed.

(** The diagnostic lines of a run: none when the [catch] block is not
    entered; when it is, one line holding the fixed prefix and the
    [message] of the caught value, or none if that [message] cannot be
    read. *)
Lemma diagnostic_lines_of_run (aiService : JSValue → Settled) (req : Request) :
  logs (trace (getReview aiService req))
  = match caught aiService req with
    | None => []
    | Some error =>
        match get_member error "message" with
        | Normal message => [[JString "Error in controller:"; message]]
        | Throw _ => []
        end
    end.
Proof.
  unfold caught.
  destruct (getReview_run aiService req) as
    [e message He Hm | code Hc Ht | code response Hc Ht Ha
    | code reason message Hc Ht Ha Hm | code reason e Hc Ht Ha Hm];
    simpl; try rewrite He; try rewrite Hc; try rewrite Ht; simpl;
    try rewrite Ha; try rewrite Hm; done.
Qed.

(** C6. A request can take the failure path without a diagnostic line:
    when the AI service rejects with a reason whose [message] cannot be
    read ([undefined] or [null]), the [catch] block is entered with that
    reason and throws before [console.error] is called, so that nothing
    is logged, and nothing is sent. *)
Theorem unreadable_rejection_is_not_logged
    (aiService : JSValue → Settled) (req : Request) (code reason e : JSValue) :
  get_member (body req) "code" = Normal code →
  truthy code = true →
  aiService code = Rejected reason →
  get_member reason "message" = Throw e →
  caught aiService req = Some reason
  ∧ results (trace (getReview aiService req)) = [Rejected reason]
  ∧ logs (trace (getReview aiService req)) = []
  ∧ responses (trace (getReview aiService req)) = [].
Proof.
  intros Hcode Htruthy Hai Hmsg.
  split.
  - unfold caught. by rewrite Hcode, Htruthy, Hai.
  - run_cases aiService req; done.
Qed.

Lemma unreadable_rejection_is_not_logged_witness :
  get_member (body sum_request) "code" = Normal snippet
  ∧ truthy snippet = true
  ∧ rejects_with JUndefined snippet = Rejected JUndefined
  ∧ get_member JUndefined "message" = Throw (cannot_read "undefined" "message")
  ∧ caught (rejects_with JUndefined) sum_request = Some JUndefined
  ∧ results (trace (getReview (rejects_with JUndefined) sum_request))
    = [Rejected JUndefined]
  ∧ logs (trace (getReview (rejects_with JUndefined) sum_request)) = []
  ∧ responses (trace (getReview (rejects_with JUndefined) sum_request)) = [].
Proof.
  split; [by vm_compute|]. do 3 (split; [reflexivity|]).
  apply (unreadable_rejection_is_not_logged _ sum_request snippet JUndefined
           (cannot_read "undefined" "message"));
    [by vm_compute | reflexivity | reflexivity | reflexivity].
Defined.

(** C7. With a truthy [code], the run starts with the call to the AI
    service and the settlement of its promise; everything the handler does
    to the response comes after, never while the call is pending. *)
Theorem response_follows_settlement
    (aiService : JSValue → Settled) (req : Request) (code : JSValue) :
  get_member (body req) "code" = Normal code →
  truthy code = true →
  quiet_while_pending false (trace (getReview aiService req)) = true
  ∧ ∃ rest, trace (getReview aiService req)
              = EvCall code :: EvSettle (aiService code) :: rest
            ∧ calls rest = []
            ∧ responses rest = responses (trace (getReview aiService req)).
Proof.
  intros Hcode Htruthy.
  run_cases aiService req; (split; [done|]);
    match goal with Ha : aiService _ = _ |- _ => rewrite Ha end;
    by eexists.
Qed.

Lemma response_follows_settlement_witness :
  get_member (body sum_request) "code" = Normal snippet
  ∧ truthy snippet = true
  ∧ quiet_while_pending false
      (trace (getReview (rejects_with (new_Error "quota exceeded")) sum_request)) = true
  ∧ ∃ rest, trace (getReview (rejects_with (new_Error "quota exceeded")) sum_request)
              = EvCall snippet
                :: EvSettle (rejects_with (new_Error "quota exceeded") snippet) :: rest
            ∧ calls rest = []
            ∧ responses rest
              = responses (trace (getReview (rejects_with (new_Error "quota exceeded"))
                                            sum_request)).
Proof.
  split; [by vm_compute|]. split; [reflexivity|].
  apply (response_follows_settlement _ sum_request snippet);
    [by vm_compute | reflexivity].
Defined.

(** ** What the response depends on *)



(** ** Further properties of the handler *)

Lemma unreadable_body_is_answered_500_witness :
  (body (post JUndefined) = JUndefined ∨ body (post JUndefined) = JNull)
  ∧ responses (trace (getReview (resolves_with JNull) (post JUndefined)))
      = [(500, JString generic_failure)]
  ∧ calls (trace (getReview (resolves_with JNull) (post JUndefined))) = [].
Proof.
  split; [left; reflexivity|].
  apply (unreadable_body_is_answered_500 _ (post JUndefined)).
  left; reflexivity.
Defined.

Lemma rejection_is_answered_500_witness :
  get_member (body sum_request) "code" = Normal snippet
  ∧ truthy snippet = true
  ∧ rejects_with (JString "quota exceeded") snippet = Rejected (JString "quota exceeded")
  ∧ JString "quota exceeded" ≠ JUndefined
  ∧ JString "quota exceeded" ≠ JNull
  ∧ responses (trace (getReview (rejects_with (JString "quota exceeded")) sum_request))
      = [(500, JString generic_failure)]
  ∧ length (logs (trace (getReview (rejects_with (JString "quota exceeded")) sum_request)))
      = 1%nat
  ∧ completion (getReview (rejects_with (JString "quota exceeded")) sum_request)
      = Normal tt.
Proof.
  split; [by vm_compute|]. do 2 (split; [reflexivity|]). do 2 (split; [discriminate|]).
  apply (rejection_is_answered_500 _ sum_request snippet (JString "quota exceeded"));
    [by vm_compute | reflexivity | reflexivity | discriminate | discriminate].
Defined.

(** A body that is neither an object nor [undefined] or [null] (a string
    left by a text parser, a number, a boolean, an array) has no [code]
    property: the request is answered with status 400 like one without the
    field, and the AI service is not called. *)
Theorem non_object_body_is_answered_400
    (aiService : JSValue → Settled) (req : Request) :
  body req ≠ JUndefined → body req ≠ JNull →
  (∀ fields, body req ≠ JObject fields) →
  responses (trace (getReview aiService req)) = [(400, JString prompt_required)]
  ∧ calls (trace (getReview aiService req)) = []
  ∧ logs (trace (getReview aiService req)) = [].
Proof.
  intros Hundef Hnull Hobj.
  assert (get_member (body req) "code" = Normal JUndefined) as Hcode.
  { destruct (body req) as [| | | | | |fields]; try done. by destruct (Hobj fields). }
  run_cases aiService req; done.
Qed.

Lemma non_object_body_is_answered_400_witness :
  body (post (JString "code=1")) ≠ JUndefined
  ∧ body (post (JString "code=1")) ≠ JNull
  ∧ (∀ fields, body (post (JString "code=1")) ≠ JObject fields)
  ∧ responses (trace (getReview (resolves_with JNull) (post (JString "code=1"))))
      = [(400, JString prompt_required)]
  ∧ calls (trace (getReview (resolves_with JNull) (post (JString "code=1")))) = []
  ∧ logs (trace (getReview (resolves_with JNull) (post (JString "code=1")))) = [].
Proof.
  do 2 (split; [discriminate|]). split; [intros fields; discriminate|].
  apply (non_object_body_is_answered_400 _ (post (JString "code=1")));
    [discriminate | discriminate | intros fields; discriminate].
Defined.

(** The AI service is called once when the request passes the validation
    and not at all otherwise, and every call is awaited: the settlements
    obtained are those of the service at the arguments of the calls. *)
Theorem service_called_exactly_when_validated
    (aiService : JSValue → Settled) (req : Request) :
  length (calls (trace (getReview aiService req)))
    = (if validated req then 1%nat else 0%nat)
  ∧ results (trace (getReview aiService req))
    = map aiService (calls (trace (getReview aiService req))).
Proof.
  unfold validated.
  destruct (getReview_run aiService req) as
    [e message He Hm | code Hc Ht | code response Hc Ht Ha
    | code reason message Hc Ht Ha Hm | code reason e Hc Ht Ha Hm];
    simpl; try rewrite He; try rewrite Hc; try rewrite Ht; try rewrite Ha; done.
Qed.

(** Whatever value the AI service resolves with, of any type and falsy or
    not, is passed to [res.send] unchanged with status 200; nothing is
    logged and the handler returns. *)
Theorem resolved_value_is_answered_200
    (aiService : JSValue → Settled) (req : Request) (code response : JSValue) :
  get_member (body req) "code" = Normal code →
  truthy code = true →
  aiService code = Resolved response →
  responses (trace (getReview aiService req)) = [(200, response)]
  ∧ logs (trace (getReview aiService req)) = []
  ∧ completion (getReview aiService req) = Normal tt.
Proof.
  intros Hcode Htruthy Hai.
  run_cases aiService req; done.
Qed.

Lemma resolved_value_is_answered_200_witness :
  get_member (body sum_request) "code" = Normal snippet
  ∧ truthy snippet = true
  ∧ resolves_with JUndefined snippet = Resolved JUndefined
  ∧ responses (trace (getReview (resolves_with JUndefined) sum_request))
      = [(200, JUndefined)]
  ∧ logs (trace (getReview (resolves_with JUndefined) sum_request)) = []
  ∧ completion (getReview (resolves_with JUndefined) sum_request) = Normal tt.
Proof.
  split; [by vm_compute|]. do 2 (split; [reflexivity|]).
  apply (resolved_value_is_answered_200 _ sum_request snippet JUndefined);
    [by vm_compute | reflexivity | reflexivity].
Defined.

(** ** The diagnostic line *)

(** When the AI service rejects and the reason's [message] can be read, the
    one diagnostic line holds the fixed prefix and that [message] value, and
    nothing else of the reason. *)
Theorem rejection_logs_message_of_reason
    (aiService : JSValue → Settled) (req : Request) (code reason message : JSValue) :
  get_member (body req) "code" = Normal code →
  truthy code = true →
  aiService code = Rejected reason →
  get_member reason "message" = Normal message →
  logs (trace (getReview aiService req))
  = [[JString "Error in controller:"; message]].
Proof.
  intros Hcode Htruthy Hai Hmsg.
  run_cases aiService req; done.
Qed.

Lemma rejection_logs_message_of_reason_witness :
  get_member (body sum_request) "code" = Normal snippet
  ∧ truthy snippet = true
  ∧ rejects_with (new_Error "quota exceeded") snippet = Rejected (new_Error "quota exceeded")
  ∧ get_member (new_Error "quota exceeded") "message" = Normal (JString "quota exceeded")
  ∧ logs (trace (getReview (rejects_with (new_Error "quota exceeded")) sum_request))
    = [[JString "Error in controller:"; JString "quota exceeded"]].
Proof.
  split; [by vm_compute|]. do 2 (split; [reflexivity|]). split; [by vm_compute|].
  apply (rejection_logs_message_of_reason _ sum_request snippet
           (new_Error "quota exceeded") (JString "quota exceeded"));
    [by vm_compute | reflexivity | reflexivity | by vm_compute].
Defined.

(** A reason that is not an object (a thrown string, number, boolean or
    array) has no [message]: the diagnostic line then holds [undefined]
    and the detail of the failure is lost, while the response is the
    usual 500. *)
Theorem non_object_reason_logs_undefined
    (aiService : JSValue → Settled) (req : Request) (code reason : JSValue) :
  get_member (body req) "code" = Normal code →
  truthy code = true →
  aiService code = Rejected reason →
  reason ≠ JUndefined → reason ≠ JNull →
  (∀ fields, reason ≠ JObject fields) →
  logs (trace (getReview aiService req))
    = [[JString "Error in controller:"; JUndefined]]
  ∧ responses (trace (getReview aiService req)) = [(500, JString generic_failure)].
Proof.
  intros Hcode Htruthy Hai Hundef Hnull Hobj.
  assert (get_member reason "message" = Normal JUndefined) as Hmsg.
  { destruct reason as [| | | | | |fields]; try done. by destruct (Hobj fields). }
  run_cases aiService req; done.
Qed.

Lemma non_object_reason_logs_undefined_witness :
  get_member (body sum_request) "code" = Normal snippet
  ∧ truthy snippet = true
  ∧ rejects_with (JString "quota exceeded") snippet = Rejected (JString "quota exceeded")
  ∧ JString "quota exceeded" ≠ JUndefined
  ∧ JString "quota exceeded" ≠ JNull
  ∧ (∀ fields, JString "quota exceeded" ≠ JObject fields)
  ∧ logs (trace (getReview (rejects_with (JString "quota exceeded")) sum_request))
    = [[JString "Error in controller:"; JUndefined]]
  ∧ responses (trace (getReview (rejects_with (JString "quota exceeded")) sum_request))
    = [(500, JString generic_failure)].
Proof.
  split; [by vm_compute|]. do 2 (split; [reflexivity|]). do 2 (split; [discriminate|]).
  split; [intros fields; discriminate|].
  apply (non_object_reason_logs_undefined _ sum_request snippet (JString "quota exceeded"));
    [by vm_compute | reflexivity | reflexivity | discriminate | discriminate
    | intros fields; discriminate].
Defined.

(** The diagnostic line is written before the response is touched: a run
    that logs ends with the line, [res.status(500)] and [res.send] of the
    fixed message, in this order, and nothing was sent or logged before. *)
Theorem log_line_precedes_response
    (aiService : JSValue → Settled) (req : Request) :
  logs (trace (getReview aiService req)) ≠ [] →
  ∃ before message,
    trace (getReview aiService req)
    = (before ++ [EvLog [JString "Error in controller:"; message];
                  EvStatus 500; EvSend (JString generic_failure)])%list
    ∧ responses before = [] ∧ logs before = [].
Proof.
  intros Hlogs.
  destruct (getReview_run aiService req) as
    [e message He Hm | code Hc Ht | code response Hc Ht Ha
    | code reason message Hc Ht Ha Hm | code reason e Hc Ht Ha Hm];
    try done.
  - by exists [], message.
  - by exists [EvCall code; EvSettle (Rejected reason)], message.
Qed.

Lemma log_line_precedes_response_witness :
  logs (trace (getReview (rejects_with (new_Error "quota exceeded")) sum_request)) ≠ []
  ∧ ∃ before message,
      trace (getReview (rejects_with (new_Error "quota exceeded")) sum_request)
      = (before ++ [EvLog [JString "Error in controller:"; message];
                    EvStatus 500; EvSend (JString generic_failure)])%list
      ∧ responses before = [] ∧ logs before = [].
Proof.
  assert (logs (trace (getReview (rejects_with (new_Error "quota exceeded")) sum_request))
          ≠ []) as Hlogs by (by vm_compute).
  split; [exact Hlogs|].
  exact (log_line_precedes_response _ sum_request Hlogs).
Defined.

(** ** What the run depends on *)

(** The handler sets the status code before every [send]: the responses do
    not depend on the status code the response object had when the handler
    was entered. *)
Theorem status_is_set_before_send
    (aiService : JSValue → Settled) (req : Request) (status : Z) :
  responses_from status (trace (getReview aiService req))
  = responses (trace (getReview aiService req)).
Proof. by destruct (getReview_run aiService req). Qed.

(** A request that fails the validation, or has no body to read, is handled
    without regard to the AI service: any two services give the same run. *)
Theorem invalid_request_ignores_service
    (aiService1 aiService2 : JSValue → Settled) (req : Request) :
  validated req = false →
  getReview aiService1 req = getReview aiService2 req.
Proof.
  unfold validated, getReview. intros Hinvalid.
  destruct (get_member (body req) "code") as [code|e]; [|done].
  simpl in *. by rewrite Hinvalid.
Qed.

Lemma invalid_request_ignores_service_witness :
  validated empty_body = false
  ∧ getReview (resolves_with (JString "Looks fine.")) empty_body
    = getReview (rejects_with JNull) empty_body.
Proof.
  split; [reflexivity|].
  apply (invalid_request_ignores_service _ _ empty_body). reflexivity.
Defined.

(** The AI service matters only through its answer to the request's
    [code]: two services that settle alike at that value give the same
    run, however they differ elsewhere. *)
Theorem service_consulted_at_code_only
    (aiService1 aiService2 : JSValue → Settled) (req : Request) :
  (∀ code, get_member (body req) "code" = Normal code →
           aiService1 code = aiService2 code) →
  getReview aiService1 req = getReview aiService2 req.
Proof.
  intros Hagree. unfold getReview.
  destruct (get_member (body req) "code") as [code|e] eqn:Hcode; [|done].
  simpl. destruct (truthy code); [|done].
  simpl. unfold await_aiService. by rewrite (Hagree code eq_refl).
Qed.

Lemma service_consulted_at_code_only_witness :
  (∀ code, get_member (body sum_request) "code" = Normal code →
           resolves_with (JString "Looks fine.") code
           = (λ v, if truthy v then Resolved (JString "Looks fine.")
                   else Rejected JNull) code)
  ∧ getReview (resolves_with (JString "Looks fine.")) sum_request
    = getReview (λ v, if truthy v then Resolved (JString "Looks fine.")
                      else Rejected JNull) sum_request.
Proof.
  assert (∀ code, get_member (body sum_request) "code" = Normal code →
            resolves_with (JString "Looks fine.") code
            = (λ v, if truthy v then Resolved (JString "Looks fine.")
                    else Rejected JNull) code) as Hagree.
  { intros code Hcode. vm_compute in Hcode. by injection Hcode as <-. }
  split; [exact Hagree|].
  exact (service_consulted_at_code_only _ _ sum_request Hagree).
Defined.

(** ** The outcome of every run *)

(** The response and the completion of a run, by what the request holds
    and how the AI service settles: 500 with the fixed message when the
    body cannot be read; 400 when [code] is falsy; 200 with the very value
    the service resolved with at [code]; 500 with the fixed message when
    the service rejected at [code] with a reason whose [message] reads; and
    no response, with the handler throwing what that read threw, when it
    does not.  A response sent is the only one, and the handler returns. *)
Theorem getReview_outcome_table (aiService : JSValue → Settled) (req : Request) :
  match get_member (body req) "code" with
  | Throw _ =>
      responses (trace (getReview aiService req)) = [(500, JString generic_failure)]
      ∧ completion (getReview aiService req) = Normal tt
  | Normal code =>
      if truthy code then
        match aiService code with
        | Resolved response =>
            responses (trace (getReview aiService req)) = [(200, response)]
            ∧ completion (getReview aiService req) = Normal tt
        | Rejected reason =>
            match get_member reason "message" with
            | Normal _ =>
                responses (trace (getReview aiService req))
                = [(500, JString generic_failure)]
                ∧ completion (getReview aiService req) = Normal tt
            | Throw e =>
                responses (trace (getReview aiService req)) = []
                ∧ completion (getReview aiService req) = Throw e
            end
        end
      else
        responses (trace (getReview aiService req)) = [(400, JString prompt_required)]
        ∧ completion (getReview aiService req) = Normal tt
  end.
Proof.
  destruct (getReview_run aiService req) as
    [e message He Hm | code Hc Ht | code response Hc Ht Ha
    | code reason message Hc Ht Ha Hm | code reason e Hc Ht Ha Hm];
    try rewrite He; try rewrite Hc; try rewrite Ht;
    try rewrite Ha; try rewrite Hm; done.
Qed.
